(** * A shallow embedding of the multiprocessor thread library

    The development follows the four translation units of the library:
    [cpu.cpp] (TCB, interrupt gates, dispatcher), [thread.cpp] (thread
    creation, trampoline, yield, join), [mutex.cpp] and [cv.cpp].

    Kernel code is written in a small state-and-error monad.  A call either
    returns to its caller, raises [std::runtime_error], transfers control to
    another saved context (so that the call does not return now), or stops the
    process (failed [assert], null dereference, ...).  Everything between two
    context switches runs with the guard held and is one atomic step. *)

From Stdlib Require Import ZArith Lia String.
From stdpp Require Import base tactics numbers option sets list.

Set Default Proof Using "Type".

(** ** Data model (cpu.h, mutex.h, cv.h) *)

(** [std::shared_ptr<TCB>] values are addresses of heap cells; the heap is a
    list that only grows, an address is an index into it.  The same holds for
    [cpu*], [mutex&] and [cv] objects. *)
Abbreviation tcb_ptr := nat (only parsing).
Abbreviation cpu_ptr := nat (only parsing).
Abbreviation mutex_ref := nat (only parsing).
Abbreviation cv_ref := nat (only parsing).

(** [enum class Status : uint8_t {Null = 0, READY, RUNNING, BLOCKED, FINISHED}] *)
Inductive Status : Set := Null | READY | RUNNING | BLOCKED | FINISHED.

#[global] Instance Status_eq_dec : EqDecision Status.
Proof. solve_decision. Defined.

(** What a saved [ucontext_t] does when it is loaded again: the kernel code
    that is still on the stack of the thread, innermost call first.  An empty
    list is the closing brace of an API function, where the destructor of its
    [kernel_guard] runs and user code continues. *)
Inductive frame : Set :=
| ThreadStart (func : nat) (arg : Z)  (* makecontext(..., thread_execution, 2, func, arg) *)
| SuspendHelper                       (* the loop of cpu::suspend_helper *)
| AssertDisabled                      (* cpu.cpp, get_next_thread after swapcontext *)
| ClearFinished (prev : tcb_ptr)      (* clear_finished_threads(prev) after swapcontext *)
| InternalLock (m : mutex_ref)        (* cv.cpp, step 4: mtx.internal_lock() *)
| TrampolineEnd.                      (* thread_execution after suspend_cpu() *)

(** [struct TCB]; [stk] is owned by the TCB alone and lives exactly as long
    as the TCB does, so it carries no state of its own here. *)
Record TCB : Set := mkTCB {
  status : Status;
  id : Z;                      (* uint32_t *)
  join_q : list tcb_ptr;
  uc : list frame
}.

(** The members the library adds to [class cpu], and the interrupt mask that
    the infrastructure keeps per CPU. *)
Record cpu : Set := mkcpu {
  curr_thread : option tcb_ptr;
  suspended_thread : option tcb_ptr;
  cpu_id : Z;                  (* unsigned int *)
  interrupts_enabled : bool
}.

Record mutex : Set := mkmutex {
  waiting_threads : list tcb_ptr;
  thread_holding_lock : Z;     (* int *)
  free : bool
}.

Record cv : Set := mkcv {
  cv_waiting_threads : list tcb_ptr
}.

(** Static members of [cpu], the heaps, and the IPIs that were sent and are
    not delivered yet. *)
Record machine : Set := mkmachine {
  tcbs : list TCB;
  cpus : list cpu;
  mutexes : list mutex;
  cvs : list cv;
  ready_threads : list tcb_ptr;
  sleeping_cpus : list cpu_ptr;
  finished_threads : list tcb_ptr;
  guard : bool;
  booted : bool;
  num_cpus : Z;
  num_threads : Z;
  pending_ipis : list cpu_ptr
}.

Definition STACK_SIZE : Z := 262144.

(** Wrap-around of [unsigned int] and [static_cast<int>] of a [uint32_t]. *)
Definition wrap32 (z : Z) : Z := (z mod 2 ^ 32)%Z.
Definition to_int (u : Z) : Z := if (u <? 2 ^ 31)%Z then u else (u - 2 ^ 32)%Z.

(** Field updates. *)
Definition set_status (st : Status) (t : TCB) : TCB :=
  mkTCB st (id t) (join_q t) (uc t).
Definition set_join_q (q : list tcb_ptr) (t : TCB) : TCB :=
  mkTCB (status t) (id t) q (uc t).
Definition set_uc (k : list frame) (t : TCB) : TCB :=
  mkTCB (status t) (id t) (join_q t) k.

Definition set_curr_thread (p : option tcb_ptr) (c : cpu) : cpu :=
  mkcpu p (suspended_thread c) (cpu_id c) (interrupts_enabled c).
Definition set_suspended_thread (p : option tcb_ptr) (c : cpu) : cpu :=
  mkcpu (curr_thread c) p (cpu_id c) (interrupts_enabled c).
Definition set_cpu_id (n : Z) (c : cpu) : cpu :=
  mkcpu (curr_thread c) (suspended_thread c) n (interrupts_enabled c).
Definition set_interrupts_enabled (b : bool) (c : cpu) : cpu :=
  mkcpu (curr_thread c) (suspended_thread c) (cpu_id c) b.

Definition set_waiting_threads (q : list tcb_ptr) (m : mutex) : mutex :=
  mkmutex q (thread_holding_lock m) (free m).
Definition set_thread_holding_lock (o : Z) (m : mutex) : mutex :=
  mkmutex (waiting_threads m) o (free m).
Definition set_free (b : bool) (m : mutex) : mutex :=
  mkmutex (waiting_threads m) (thread_holding_lock m) b.

Definition with_tcbs (f : list TCB → list TCB) (s : machine) : machine :=
  mkmachine (f (tcbs s)) (cpus s) (mutexes s) (cvs s) (ready_threads s)
    (sleeping_cpus s) (finished_threads s) (guard s) (booted s) (num_cpus s)
    (num_threads s) (pending_ipis s).
Definition with_cpus (f : list cpu → list cpu) (s : machine) : machine :=
  mkmachine (tcbs s) (f (cpus s)) (mutexes s) (cvs s) (ready_threads s)
    (sleeping_cpus s) (finished_threads s) (guard s) (booted s) (num_cpus s)
    (num_threads s) (pending_ipis s).
Definition with_mutexes (f : list mutex → list mutex) (s : machine) : machine :=
  mkmachine (tcbs s) (cpus s) (f (mutexes s)) (cvs s) (ready_threads s)
    (sleeping_cpus s) (finished_threads s) (guard s) (booted s) (num_cpus s)
    (num_threads s) (pending_ipis s).
Definition with_cvs (f : list cv → list cv) (s : machine) : machine :=
  mkmachine (tcbs s) (cpus s) (mutexes s) (f (cvs s)) (ready_threads s)
    (sleeping_cpus s) (finished_threads s) (guard s) (booted s) (num_cpus s)
    (num_threads s) (pending_ipis s).
Definition with_ready_threads (f : list tcb_ptr → list tcb_ptr) (s : machine) : machine :=
  mkmachine (tcbs s) (cpus s) (mutexes s) (cvs s) (f (ready_threads s))
    (sleeping_cpus s) (finished_threads s) (guard s) (booted s) (num_cpus s)
    (num_threads s) (pending_ipis s).
Definition with_sleeping_cpus (f : list cpu_ptr → list cpu_ptr) (s : machine) : machine :=
  mkmachine (tcbs s) (cpus s) (mutexes s) (cvs s) (ready_threads s)
    (f (sleeping_cpus s)) (finished_threads s) (guard s) (booted s) (num_cpus s)
    (num_threads s) (pending_ipis s).
Definition with_finished_threads (f : list tcb_ptr → list tcb_ptr) (s : machine) : machine :=
  mkmachine (tcbs s) (cpus s) (mutexes s) (cvs s) (ready_threads s)
    (sleeping_cpus s) (f (finished_threads s)) (guard s) (booted s) (num_cpus s)
    (num_threads s) (pending_ipis s).
Definition with_guard (b : bool) (s : machine) : machine :=
  mkmachine (tcbs s) (cpus s) (mutexes s) (cvs s) (ready_threads s)
    (sleeping_cpus s) (finished_threads s) b (booted s) (num_cpus s)
    (num_threads s) (pending_ipis s).
Definition with_booted (b : bool) (s : machine) : machine :=
  mkmachine (tcbs s) (cpus s) (mutexes s) (cvs s) (ready_threads s)
    (sleeping_cpus s) (finished_threads s) (guard s) b (num_cpus s)
    (num_threads s) (pending_ipis s).
Definition with_num_cpus (n : Z) (s : machine) : machine :=
  mkmachine (tcbs s) (cpus s) (mutexes s) (cvs s) (ready_threads s)
    (sleeping_cpus s) (finished_threads s) (guard s) (booted s) n
    (num_threads s) (pending_ipis s).
Definition with_num_threads (n : Z) (s : machine) : machine :=
  mkmachine (tcbs s) (cpus s) (mutexes s) (cvs s) (ready_threads s)
    (sleeping_cpus s) (finished_threads s) (guard s) (booted s) (num_cpus s)
    n (pending_ipis s).
Definition with_pending_ipis (f : list cpu_ptr → list cpu_ptr) (s : machine) : machine :=
  mkmachine (tcbs s) (cpus s) (mutexes s) (cvs s) (ready_threads s)
    (sleeping_cpus s) (finished_threads s) (guard s) (booted s) (num_cpus s)
    (num_threads s) (f (pending_ipis s)).

(** The machine before [cpu::boot]: no CPU, no thread, guard initialised to
    false. *)
Definition initial : machine :=
  mkmachine [] [] [] [] [] [] [] false false 0 0 [].

(** ** The kernel monad *)

Inductive fault : Set :=
| AssertFailed          (* assert(...) or assert_interrupts_disabled() *)
| NullDeref             (* a null or dangling pointer is dereferenced *)
| GuardSpin             (* guard_acquire on a guard nobody will release *)
| TrampolineReturned.   (* thread_execution came back to its caller *)

Inductive outcome (A : Type) : Type :=
| Ret (a : A) (s : machine)            (* the call returns *)
| Throw (what : string) (s : machine)  (* std::runtime_error propagates *)
| Switched (s : machine)               (* control left through a context switch *)
| Fault (f : fault).
Arguments Ret {A} a s.
Arguments Throw {A} what s.
Arguments Switched {A} s.
Arguments Fault {A} f.

Definition M (A : Type) : Type := machine → outcome A.

Definition ret {A} (a : A) : M A := λ s, Ret a s.
Definition bind {A B} (m : M A) (k : A → M B) : M B :=
  λ s, match m s with
       | Ret a s' => k a s'
       | Throw w s' => Throw w s'
       | Switched s' => Switched s'
       | Fault f => Fault f
       end.

Declare Scope kernel_scope.
Delimit Scope kernel_scope with K.
Bind Scope kernel_scope with M.
Notation "x ← y ; z" := (bind y (λ x : _, z))
  (at level 20, y at level 100, z at level 200) : kernel_scope.
Notation "x ;; z" := (bind x (λ _, z))
  (at level 100, z at level 200, right associativity) : kernel_scope.
Open Scope kernel_scope.

Definition gets {A} (f : machine → A) : M A := λ s, Ret (f s) s.
Definition modify (f : machine → machine) : M unit := λ s, Ret tt (f s).
Definition raise {A} (f : fault) : M A := λ _, Fault f.
Definition throw {A} (what : string) : M A := λ s, Throw what s.
Definition assert (b : bool) : M unit :=
  if b then ret tt else raise AssertFailed.
(** [p->...] on a [shared_ptr] or raw pointer. *)
Definition deref {A} (o : option A) : M A :=
  match o with Some a => ret a | None => raise NullDeref end.
(** [assert(p)] / [assert(p.get())] followed by uses of [p]. *)
Definition assert_some {A} (o : option A) : M A :=
  match o with Some a => ret a | None => raise AssertFailed end.
(** Stack unwinding through a scope that owns an object with destructor [dtor]. *)
Definition unwinding {A} (dtor : M unit) (body : M A) : M A :=
  λ s, match body s with
       | Throw w s' => (dtor;; throw w) s'
       | o => o
       end.

Definition the_cpu (c : cpu_ptr) : M cpu := l ← gets cpus; deref (l !! c).
Definition the_tcb (t : tcb_ptr) : M TCB := l ← gets tcbs; deref (l !! t).
Definition the_mutex (m : mutex_ref) : M mutex := l ← gets mutexes; deref (l !! m).
Definition the_cv (v : cv_ref) : M cv := l ← gets cvs; deref (l !! v).

Definition write_cpu (c : cpu_ptr) (f : cpu → cpu) : M unit :=
  _ ← the_cpu c; modify (with_cpus (alter f c)).
Definition write_tcb (t : tcb_ptr) (f : TCB → TCB) : M unit :=
  _ ← the_tcb t; modify (with_tcbs (alter f t)).
Definition write_mutex (m : mutex_ref) (f : mutex → mutex) : M unit :=
  _ ← the_mutex m; modify (with_mutexes (alter f m)).
Definition write_cv (v : cv_ref) (f : cv → cv) : M unit :=
  _ ← the_cv v; modify (with_cvs (alter f v)).

(** ** The infrastructure (libcpu) *)

Definition interrupt_disable (c : cpu_ptr) : M unit :=
  write_cpu c (set_interrupts_enabled false).
Definition interrupt_enable (c : cpu_ptr) : M unit :=
  write_cpu c (set_interrupts_enabled true).
(** Enables interrupts and halts the CPU until an IPI is delivered. *)
Definition interrupt_enable_suspend (c : cpu_ptr) : M unit :=
  write_cpu c (set_interrupts_enabled true).
Definition interrupt_send (target : cpu_ptr) : M unit :=
  modify (with_pending_ipis (λ l, l ++ [target])).
Definition assert_interrupts_disabled (c : cpu_ptr) : M unit :=
  cp ← the_cpu c; assert (negb (interrupts_enabled cp)).

(** [setcontext] and the loading half of [swapcontext]: the code of the
    loaded context runs as the next step of this CPU (see [resume]). *)
Definition setcontext (c : cpu_ptr) (next : tcb_ptr) : M unit :=
  _ ← the_tcb next; λ s, Switched s.
(** [swapcontext(prev->uc, next->uc)] called from a point after which the
    frames [k] remain to be run by [prev]. *)
Definition swapcontext (c : cpu_ptr) (prev : tcb_ptr) (k : list frame)
    (next : tcb_ptr) : M unit :=
  write_tcb prev (set_uc k);; setcontext c next.
(** [makecontext(t->uc, t->stk, STACK_SIZE, fn, ...)] *)
Definition makecontext (t : tcb_ptr) (entry : frame) : M unit :=
  write_tcb t (set_uc [entry]).

(** ** cpu.cpp *)

(** [TCB::TCB()]: status [Null], the next thread id, a fresh stack and an
    empty context.  Returns the address of the new TCB. *)
Definition make_shared_TCB : M tcb_ptr :=
  n ← gets num_threads;
  modify (with_num_threads (wrap32 (n + 1)));;
  l ← gets tcbs;
  modify (with_tcbs (λ l, l ++ [mkTCB Null n [] []]));;
  ret (length l).

Definition guard_acquire (c : cpu_ptr) : M unit :=
  assert_interrupts_disabled c;;
  g ← gets guard;
  (* while (guard.exchange(true)) {} *)
  if g then raise GuardSpin else modify (with_guard true).

Definition guard_release (c : cpu_ptr) : M unit :=
  assert_interrupts_disabled c;;
  modify (with_guard false).

Definition kernel_guard_ctor (c : cpu_ptr) : M unit :=
  interrupt_disable c;; guard_acquire c.
Definition kernel_guard_dtor (c : cpu_ptr) : M unit :=
  guard_release c;; interrupt_enable c.
Definition user_guard_ctor (c : cpu_ptr) : M unit :=
  guard_release c;; interrupt_enable c.
Definition user_guard_dtor (c : cpu_ptr) : M unit :=
  interrupt_disable c;; guard_acquire c.

(** A block [{ kernel_guard kg; body }]. *)
Definition kernel_guard {A} (c : cpu_ptr) (body : M A) : M A :=
  kernel_guard_ctor c;;
  a ← unwinding (kernel_guard_dtor c) body;
  kernel_guard_dtor c;;
  ret a.

(** One turn of the loop of [cpu::suspend_helper]; the CPU is halted at its
    end, and the next turn starts when its context runs again. *)
Definition suspend_helper (c : cpu_ptr) : M unit :=
  assert_interrupts_disabled c;;
  modify (with_sleeping_cpus (λ l, l ++ [c]));;
  guard_release c;;
  interrupt_enable_suspend c.

(** [cpu::suspend_cpu()], called where the frames [k] remain to be run. *)
Definition suspend_cpu (c : cpu_ptr) (k : list frame) : M unit :=
  assert_interrupts_disabled c;;
  cp ← the_cpu c;
  match curr_thread cp with
  | Some prev =>
      write_cpu c (set_curr_thread (suspended_thread cp));;
      idle ← assert_some (suspended_thread cp);
      _ ← the_tcb idle;
      _ ← the_tcb prev;
      swapcontext c prev k idle
  | None =>
      write_cpu c (set_curr_thread (suspended_thread cp));;
      idle ← deref (suspended_thread cp);
      setcontext c idle
  end.

Definition fetch_cpu (c : cpu_ptr) : M unit :=
  assert_interrupts_disabled c;;
  q ← gets sleeping_cpus;
  match q with
  | next_cpu :: rest =>
      modify (with_sleeping_cpus (λ _, rest));;
      assert (bool_decide (next_cpu ≠ c));;
      n ← the_cpu next_cpu;
      me ← the_cpu c;
      assert (bool_decide (curr_thread n = suspended_thread n));;
      assert (bool_decide (curr_thread n ≠ suspended_thread me));;
      interrupt_send next_cpu
  | [] => ret tt
  end.

Definition push_to_queue (c : cpu_ptr) (thread : tcb_ptr) : M unit :=
  assert_interrupts_disabled c;;
  t ← the_tcb thread;
  assert (bool_decide (status t ≠ FINISHED));;
  assert (bool_decide (status t ≠ READY));;
  assert (bool_decide (status t = RUNNING) || bool_decide (status t = BLOCKED)
          || bool_decide (status t = Null));;
  write_tcb thread (set_status READY);;
  modify (with_ready_threads (λ l, l ++ [thread]));;
  fetch_cpu c.

(** The body of the range-for of [clear_finished_threads]: the loop variable
    [finished_thread] is a copy of the vector element (the loop is written
    [for (auto finished_thread : ...)], by value); [reset()] empties that
    copy.  [vec] is what is left of the vector to visit. *)
Fixpoint clear_finished_loop (curr : tcb_ptr) (vec : list tcb_ptr) : M unit :=
  match vec with
  | element :: rest =>
      let finished_thread : option tcb_ptr := Some element in
      t ← (p ← deref finished_thread; the_tcb p);
      assert (bool_decide (status t = FINISHED));;
      assert (bool_decide (finished_thread ≠ Some curr));;
      let finished_thread : option tcb_ptr := None in
      clear_finished_loop curr rest
  | [] => ret tt
  end.

Definition clear_finished_threads (c : cpu_ptr) (curr : tcb_ptr) : M unit :=
  assert_interrupts_disabled c;;
  vec ← gets finished_threads;
  clear_finished_loop curr vec.

(** [cpu::get_next_thread()], called where the frames [k] remain to be run
    after it returns. *)
Definition get_next_thread (c : cpu_ptr) (k : list frame) : M unit :=
  assert_interrupts_disabled c;;
  rq ← gets ready_threads;
  match rq with
  | next :: rest =>
      cp ← the_cpu c;
      prev ← assert_some (curr_thread cp);
      write_cpu c (set_curr_thread (Some next));;
      modify (with_ready_threads (λ _, rest));;
      nt ← the_tcb next;
      assert (bool_decide (status nt = READY));;
      pt ← the_tcb prev;
      assert (bool_decide (status pt = BLOCKED));;
      write_tcb next (set_status RUNNING);;
      swapcontext c prev (AssertDisabled :: ClearFinished prev :: k) next;;
      assert_interrupts_disabled c;;
      clear_finished_threads c prev
  | [] => suspend_cpu c k
  end.

Definition begin_process (c : cpu_ptr) : M unit :=
  rq ← gets ready_threads;
  match rq with
  | next :: rest =>
      write_cpu c (set_curr_thread (Some next));;
      modify (with_ready_threads (λ _, rest));;
      write_tcb next (set_status RUNNING);;
      setcontext c next
  | [] => suspend_cpu c []
  end.

(** [cpu::ipi_handler()].  IPIs are sent only to CPUs taken from
    [sleeping_cpus]; such a CPU is halted inside [suspend_helper], which is
    the code that continues when the handler returns. *)
Definition ipi_handler (c : cpu_ptr) : M unit :=
  interrupt_disable c;;
  guard_acquire c;;
  rq ← gets ready_threads;
  match rq with
  | next :: rest =>
      cp ← the_cpu c;
      let prev := curr_thread cp in
      write_cpu c (set_curr_thread (Some next));;
      modify (with_ready_threads (λ _, rest));;
      nt ← the_tcb next;
      assert (bool_decide (status nt = READY));;
      write_tcb next (set_status RUNNING);;
      p ← deref prev;
      swapcontext c p [SuspendHelper] next
  | [] => ret tt
  end.

(** ** mutex.cpp *)

Definition mutex_ctor : M mutex_ref :=
  l ← gets mutexes;
  modify (with_mutexes (λ l, l ++ [mkmutex [] (-1) true]));;
  ret (length l).

(** [mutex::internal_lock()], called where the frames [k] remain to be run
    after it returns. *)
Definition internal_lock (c : cpu_ptr) (m : mutex_ref) (k : list frame) : M unit :=
  assert_interrupts_disabled c;;
  g ← gets guard; assert g;;
  cp ← the_cpu c;
  cur ← assert_some (curr_thread cp);
  mx ← the_mutex m;
  if negb (free mx) then
    ct ← the_tcb cur;
    assert (bool_decide (status ct ≠ FINISHED) || bool_decide (status ct ≠ READY));;
    write_tcb cur (set_status BLOCKED);;
    ct ← the_tcb cur;
    assert (bool_decide (status ct = BLOCKED));;
    write_mutex m (λ mx, set_waiting_threads (waiting_threads mx ++ [cur]) mx);;
    get_next_thread c k
  else
    ct ← the_tcb cur;
    write_mutex m (set_thread_holding_lock (to_int (id ct)));;
    write_mutex m (set_free false).

Definition runtime_error_unlock : string :=
  "Unlock called by thread not holding mutex".
Definition runtime_error_wait : string :=
  "cv::wait() called by thread that did not own mutex".

Definition internal_unlock (c : cpu_ptr) (m : mutex_ref) : M unit :=
  assert_interrupts_disabled c;;
  g ← gets guard; assert g;;
  mx ← the_mutex m;
  cp ← the_cpu c;
  ct ← (cur ← deref (curr_thread cp); the_tcb cur);
  if bool_decide (thread_holding_lock mx ≠ to_int (id ct)) then
    throw runtime_error_unlock
  else
    write_mutex m (set_free true);;
    mx ← the_mutex m;
    match waiting_threads mx with
    | waiting_thread :: rest =>
        write_mutex m (set_waiting_threads rest);;
        wt ← the_tcb waiting_thread;
        assert (bool_decide (status wt ≠ FINISHED));;
        write_mutex m (set_thread_holding_lock (to_int (id wt)));;
        write_mutex m (set_free false);;
        push_to_queue c waiting_thread
    | [] => ret tt
    end.

Definition mutex_lock (c : cpu_ptr) (m : mutex_ref) : M unit :=
  kernel_guard c (internal_lock c m []).

Definition mutex_unlock (c : cpu_ptr) (m : mutex_ref) : M unit :=
  kernel_guard c (internal_unlock c m).

(** ** cv.cpp *)

Definition cv_ctor : M cv_ref :=
  l ← gets cvs;
  modify (with_cvs (λ l, l ++ [mkcv []]));;
  ret (length l).

Definition cv_wait (c : cpu_ptr) (v : cv_ref) (mtx : mutex_ref) : M unit :=
  kernel_guard c (
    assert_interrupts_disabled c;;
    g ← gets guard; assert g;;
    mx ← the_mutex mtx;
    cp ← the_cpu c;
    cur ← deref (curr_thread cp);
    ct ← the_tcb cur;
    if bool_decide (thread_holding_lock mx = to_int (id ct)) then
      internal_unlock c mtx;;
      write_tcb cur (set_status BLOCKED);;
      write_cv v (λ x, mkcv (cv_waiting_threads x ++ [cur]));;
      get_next_thread c [InternalLock mtx];;
      internal_lock c mtx []
    else
      throw runtime_error_wait).

Definition cv_signal (c : cpu_ptr) (v : cv_ref) : M unit :=
  kernel_guard c (
    assert_interrupts_disabled c;;
    g ← gets guard; assert g;;
    x ← the_cv v;
    match cv_waiting_threads x with
    | next_thread :: rest =>
        write_cv v (λ _, mkcv rest);;
        push_to_queue c next_thread
    | [] => ret tt
    end).

(** The loop of [cv::broadcast]; [q] is the waiting queue as the loop finds
    it ([push_to_queue] does not touch it). *)
Fixpoint broadcast_loop (c : cpu_ptr) (v : cv_ref) (q : list tcb_ptr) : M unit :=
  match q with
  | next_thread :: rest =>
      write_cv v (λ _, mkcv rest);;
      push_to_queue c next_thread;;
      broadcast_loop c v rest
  | [] => ret tt
  end.

Definition cv_broadcast (c : cpu_ptr) (v : cv_ref) : M unit :=
  kernel_guard c (
    assert_interrupts_disabled c;;
    g ← gets guard; assert g;;
    x ← the_cv v;
    broadcast_loop c v (cv_waiting_threads x)).

(** ** thread.cpp *)

(** [thread::thread(func, arg)]; the result is the TCB that the handle's
    weak pointer [this_thread] refers to. *)
Definition thread_ctor (c : cpu_ptr) (func : option nat) (arg : Z) : M tcb_ptr :=
  kernel_guard c (
    assert_interrupts_disabled c;;
    f ← assert_some func;
    b ← gets booted; assert b;;
    tcb ← make_shared_TCB;
    makecontext tcb (ThreadStart f arg);;
    push_to_queue c tcb;;
    ret tcb).

(** [thread_execution] up to the call of [func(arg)], which then runs as
    user code inside the [user_guard]. *)
Definition thread_execution_begin (c : cpu_ptr) : M unit :=
  assert_interrupts_disabled c;;
  g ← gets guard; assert g;;
  user_guard_ctor c.

(** The loop that empties [join_q] of the current thread [self]; [q] is the
    queue as the loop finds it. *)
Fixpoint wake_joiners (c : cpu_ptr) (self : tcb_ptr) (q : list tcb_ptr) : M unit :=
  match q with
  | thread :: rest =>
      write_tcb self (set_join_q rest);;
      push_to_queue c thread;;
      wake_joiners c self rest
  | [] => ret tt
  end.

(** [thread_execution] from the return of [func(arg)] on. *)
Definition thread_execution_end (c : cpu_ptr) : M unit :=
  user_guard_dtor c;;
  assert_interrupts_disabled c;;
  g ← gets guard; assert g;;
  cp ← the_cpu c;
  self ← deref (curr_thread cp);
  st ← the_tcb self;
  wake_joiners c self (join_q st);;
  write_tcb self (set_status FINISHED);;
  modify (with_finished_threads (λ l, l ++ [self]));;
  rq ← gets ready_threads;
  match rq with
  | next :: rest =>
      write_cpu c (set_curr_thread (Some next));;
      modify (with_ready_threads (λ _, rest));;
      write_tcb next (set_status RUNNING);;
      setcontext c next
  | [] => suspend_cpu c [TrampolineEnd]
  end;;
  raise TrampolineReturned.

Definition thread_yield (c : cpu_ptr) : M unit :=
  kernel_guard c (
    assert_interrupts_disabled c;;
    g ← gets guard; assert g;;
    b ← gets booted; assert b;;
    cp ← the_cpu c;
    prev ← assert_some (curr_thread cp);
    rq ← gets ready_threads;
    match rq with
    | next :: rest =>
        write_cpu c (set_curr_thread (Some next));;
        modify (with_ready_threads (λ _, rest));;
        push_to_queue c prev;;
        write_tcb next (set_status RUNNING);;
        swapcontext c prev [ClearFinished prev] next;;
        clear_finished_threads c prev
    | [] => ret tt
    end).

(** [thread::join()] on a handle whose weak pointer refers to [target]; a
    pointer outside the heap is an expired one. *)
Definition thread_join (c : cpu_ptr) (target : tcb_ptr) : M unit :=
  kernel_guard c (
    assert_interrupts_disabled c;;
    g ← gets guard; assert g;;
    l ← gets tcbs;
    match l !! target with
    | Some temp_this_thread =>
        if bool_decide (status temp_this_thread ≠ FINISHED) then
          cp ← the_cpu c;
          cur ← deref (curr_thread cp);
          write_tcb cur (set_status BLOCKED);;
          write_tcb target (λ t, set_join_q (join_q t ++ [cur]) t);;
          get_next_thread c []
        else ret tt
    | None => ret tt
    end).

(** ** cpu.cpp, continued: the timer handler and the constructor *)

Definition timer_interrupt_handler (c : cpu_ptr) : M unit :=
  idle ← kernel_guard c (
    cp ← the_cpu c;
    ret (bool_decide (curr_thread cp = suspended_thread cp)));
  if idle then ret tt else thread_yield c.

(** [cpu::cpu(func, arg)], run by the infrastructure on a new CPU, which
    starts with interrupts disabled. *)
Definition cpu_ctor (func : option nat) (arg : Z) : M unit :=
  l ← gets cpus;
  let c := length l in
  modify (with_cpus (λ l, l ++ [mkcpu None None 0 false]));;
  assert_interrupts_disabled c;;
  guard_acquire c;;
  modify (with_booted true);;
  n ← gets num_cpus;
  modify (with_num_cpus (wrap32 (n + 1)));;
  write_cpu c (set_cpu_id n);;
  idle ← make_shared_TCB;
  write_cpu c (set_suspended_thread (Some idle));;
  makecontext idle SuspendHelper;;
  match func with
  | Some f =>
      first_thread ← make_shared_TCB;
      makecontext first_thread (ThreadStart f arg);;
      push_to_queue c first_thread
  | None => ret tt
  end;;
  begin_process c.

(** ** Running a loaded context *)

(** The kernel code of a context that has just been loaded on CPU [c], up to
    the point where user code continues, the CPU halts, or the thread gives
    the CPU away again. *)
Fixpoint run_frames (c : cpu_ptr) (k : list frame) : M unit :=
  match k with
  | [] => kernel_guard_dtor c
  | ThreadStart _ _ :: _ => thread_execution_begin c
  | SuspendHelper :: _ => suspend_helper c
  | AssertDisabled :: k' => assert_interrupts_disabled c;; run_frames c k'
  | ClearFinished prev :: k' => clear_finished_threads c prev;; run_frames c k'
  | InternalLock m :: k' => internal_lock c m k';; run_frames c k'
  | TrampolineEnd :: _ => raise TrampolineReturned
  end.

Definition resume (c : cpu_ptr) : M unit :=
  cp ← the_cpu c;
  t ← deref (curr_thread cp);
  tc ← the_tcb t;
  run_frames c (uc tc).

(** Delivery of a pending IPI to the halted CPU [c]: the handler runs, and
    if it returns, [suspend_helper] takes its next turn. *)
Definition deliver_ipi (c : cpu_ptr) : M unit :=
  ipi_handler c;;
  suspend_helper c.

(** ** Steps of the machine *)

(** What can happen next: the infrastructure starts a CPU, delivers an
    interrupt, a CPU that switched contexts runs the loaded one, or the user
    code running on CPU [c] calls into the library or returns from the body of
    its thread. *)
Inductive action : Set :=
| Boot (func : option nat) (arg : Z)
| Resume (c : cpu_ptr)
| Ipi (c : cpu_ptr)
| Timer (c : cpu_ptr)
| Create (c : cpu_ptr) (func : option nat) (arg : Z)
| Yield (c : cpu_ptr)
| Join (c : cpu_ptr) (target : tcb_ptr)
| BodyReturns (c : cpu_ptr)
| NewMutex
| Lock (c : cpu_ptr) (m : mutex_ref)
| Unlock (c : cpu_ptr) (m : mutex_ref)
| NewCv
| Wait (c : cpu_ptr) (v : cv_ref) (m : mutex_ref)
| Signal (c : cpu_ptr) (v : cv_ref)
| Broadcast (c : cpu_ptr) (v : cv_ref).

(** CPU [c] executes user code of its current thread: interrupts are enabled
    and the current thread is not the idle TCB. *)
Definition in_user_code (s : machine) (c : cpu_ptr) : bool :=
  match cpus s !! c with
  | Some cp =>
      interrupts_enabled cp
      && bool_decide (is_Some (curr_thread cp))
      && bool_decide (curr_thread cp ≠ suspended_thread cp)
  | None => false
  end.

(** CPU [c] is halted in [interrupt_enable_suspend]. *)
Definition halted (s : machine) (c : cpu_ptr) : bool :=
  match cpus s !! c with
  | Some cp =>
      interrupts_enabled cp
      && bool_decide (is_Some (curr_thread cp))
      && bool_decide (curr_thread cp = suspended_thread cp)
  | None => false
  end.

(** CPU [c] is inside the kernel, at a context switch: it holds the guard
    with its interrupts disabled. *)
Definition switching (s : machine) (c : cpu_ptr) : bool :=
  match cpus s !! c with
  | Some cp => guard s && negb (interrupts_enabled cp)
  | None => false
  end.

Fixpoint remove_first (c : cpu_ptr) (l : list cpu_ptr) : list cpu_ptr :=
  match l with
  | [] => []
  | x :: l' => if bool_decide (x = c) then l' else x :: remove_first c l'
  end.

Definition enabled (a : action) (s : machine) : bool :=
  match a with
  | Boot _ _ | NewMutex | NewCv => true
  | Resume c => switching s c
  | Ipi c => bool_decide (c ∈ pending_ipis s) && halted s c
  | Timer c | Create c _ _ | Yield c | Join c _ | BodyReturns c
  | Lock c _ | Unlock c _ | Wait c _ _ | Signal c _ | Broadcast c _ =>
      in_user_code s c
  end.

Definition exec (a : action) : M unit :=
  match a with
  | Boot func arg => cpu_ctor func arg
  | Resume c => resume c
  | Ipi c => modify (with_pending_ipis (remove_first c));; deliver_ipi c
  | Timer c => timer_interrupt_handler c
  | Create c func arg => _ ← thread_ctor c func arg; ret tt
  | Yield c => thread_yield c
  | Join c target => thread_join c target
  | BodyReturns c => thread_execution_end c
  | NewMutex => _ ← mutex_ctor; ret tt
  | Lock c m => mutex_lock c m
  | Unlock c m => mutex_unlock c m
  | NewCv => _ ← cv_ctor; ret tt
  | Wait c v m => cv_wait c v m
  | Signal c v => cv_signal c v
  | Broadcast c v => cv_broadcast c v
  end.

(** The state after the step, if the action is enabled and the process is
    not stopped by it.  A raised error leaves the state it was raised in. *)
Definition state_of {A} (o : outcome A) : option machine :=
  match o with
  | Ret _ s | Throw _ s | Switched s => Some s
  | Fault _ => None
  end.

Definition step (a : action) (s : machine) : option machine :=
  if enabled a s then state_of (exec a s) else None.

Fixpoint run (l : list action) (s : machine) : option machine :=
  match l with
  | [] => Some s
  | a :: l' => match step a s with Some s' => run l' s' | None => None end
  end.

Definition reachable (s : machine) : Prop := ∃ l, run l initial = Some s.

(** ** Notions used in the statements *)

(** What [fetch_cpu], run by CPU [c], asserts of the CPU [n] it takes from
    [sleeping_cpus]. *)
Definition wakeable (s : machine) (c n : cpu_ptr) : Prop :=
  n ≠ c ∧ ∃ ncp me, cpus s !! n = Some ncp ∧ cpus s !! c = Some me ∧
    curr_thread ncp = suspended_thread ncp ∧
    curr_thread ncp ≠ suspended_thread me.

Definition status_of (s : machine) (t : tcb_ptr) : option Status :=
  status <$> tcbs s !! t.

(** Thread [t] holds mutex [m]: the mutex is taken, and [t] is the thread
    that was made its owner when it was taken. *)
Definition holds (s : machine) (m : mutex_ref) (t : tcb_ptr) : Prop :=
  ∃ mx tcb, mutexes s !! m = Some mx ∧ tcbs s !! t = Some tcb ∧
    free mx = false ∧ thread_holding_lock mx = to_int (id tcb).

(** The frames a thread leaves behind when [mutex::lock] blocks it: through
    the dispatching branch of [get_next_thread], or through [suspend_cpu]. *)
Definition lock_frames (cur : tcb_ptr) : list (list frame) :=
  [[AssertDisabled; ClearFinished cur]; []].

(** All TCBs that sit on the waiting queue of a mutex, of a condition
    variable, or on a join queue. *)
Definition waiting (s : machine) : list tcb_ptr :=
  concat (waiting_threads <$> mutexes s)
  ++ concat (cv_waiting_threads <$> cvs s)
  ++ concat (join_q <$> tcbs s).

(** The user thread a CPU is running, if it is not on its idle TCB. *)
Definition running_on (cp : cpu) : option tcb_ptr :=
  match curr_thread cp with
  | Some t => if bool_decide (suspended_thread cp = Some t) then None else Some t
  | None => None
  end.
Definition running (l : list cpu) : list tcb_ptr := omap running_on l.

(** The number of [shared_ptr<TCB>] objects of the machine that refer to
    [t]: a TCB is destroyed when this drops to zero. *)
Definition count (t : tcb_ptr) (l : list tcb_ptr) : nat :=
  length (filter (λ x, x = t) l).
Definition use_count (s : machine) (t : tcb_ptr) : nat :=
  count t (ready_threads s) + count t (waiting s) + count t (finished_threads s)
  + count t (omap curr_thread (cpus s)) + count t (omap suspended_thread (cpus s)).

(** Modelled from the spec: the sweep of section 4.4, "for each entry not
    equal to itself, drop the queue's reference", for comparison with
    [clear_finished_threads]. *)
Definition spec_sweep (curr : tcb_ptr) (s : machine) : machine :=
  with_finished_threads (filter (λ x, x = curr)) s.

(** The queue discipline over a status map [σ], the ready queue [r], the
    waiting TCBs [w], the finished list [f] and the running TCBs [u]. *)
Definition good (σ : tcb_ptr → option Status) (r w f u : list tcb_ptr) : Prop :=
  (∀ t, t ∈ r → σ t = Some READY) ∧
  (∀ t, t ∈ w → σ t = Some BLOCKED) ∧
  (∀ t, t ∈ f → σ t = Some FINISHED) ∧
  (∀ t, t ∈ u → σ t = Some RUNNING) ∧
  NoDup r ∧ NoDup w ∧ NoDup f ∧ NoDup u.

(** Every idle TCB is untouched by scheduling: status [Null], and a context
    that enters the loop of [suspend_helper]. *)
Definition idle_ok (s : machine) : Prop :=
  ∀ c cp i, cpus s !! c = Some cp → suspended_thread cp = Some i →
    ∃ tcb, tcbs s !! i = Some tcb ∧ status tcb = Null ∧ uc tcb = [SuspendHelper].

Definition Inv (s : machine) : Prop :=
  good (status_of s) (ready_threads s) (waiting s) (finished_threads s)
       (running (cpus s))
  ∧ idle_ok s.

(** The same with the current thread of CPU [c] left out, for the stretch
    of kernel code in which CPU [c] changes threads. *)
Definition Inv_but (c : cpu_ptr) (s : machine) : Prop :=
  good (status_of s) (ready_threads s) (waiting s) (finished_threads s)
       (running (delete c (cpus s)))
  ∧ idle_ok s.

(** How the list of the TCBs in state [S] may change when TCB [t] goes
    from status [Y] to status [X]: it may gain [t] if [S = X], it loses [t]
    if [S = Y], and it does not grow otherwise. *)
Definition moved (S Y X : Status) (t : tcb_ptr) (l l' : list tcb_ptr) : Prop :=
  if bool_decide (S = X) then l' ⊆+ t :: l
  else if bool_decide (S = Y) then l ≡ₚ t :: l' ∨ (l' ⊆+ l ∧ t ∉ l')
  else l' ⊆+ l.

(** What of a CPU the queue discipline looks at. *)
Definition slots (cp : cpu) : option tcb_ptr * option tcb_ptr :=
  (curr_thread cp, suspended_thread cp).

(** Two states with the same scheduling data: they differ at most in the
    guard, the interrupt masks, the idle-CPU queue, the pending IPIs and the
    counters. *)
Definition sched_eq (s s' : machine) : Prop :=
  tcbs s' = tcbs s ∧ slots <$> cpus s' = slots <$> cpus s ∧
  mutexes s' = mutexes s ∧ cvs s' = cvs s ∧
  ready_threads s' = ready_threads s ∧
  finished_threads s' = finished_threads s.

(** Invariant I2 as the specification words it. *)
Definition I2 (s : machine) : Prop :=
  (∀ t, t ∈ ready_threads s → status_of s t = Some READY) ∧
  (∀ m mx t, mutexes s !! m = Some mx → t ∈ waiting_threads mx →
     status_of s t = Some BLOCKED) ∧
  (∀ v x t, cvs s !! v = Some x → t ∈ cv_waiting_threads x →
     status_of s t = Some BLOCKED) ∧
  (∀ j jt t, tcbs s !! j = Some jt → t ∈ join_q jt →
     status_of s t = Some BLOCKED) ∧
  (∀ t, t ∈ finished_threads s → status_of s t = Some FINISHED).

(** Two states that differ at most in the idle-CPU queue and in the pending
    IPIs. *)
Definition same_sched (s s' : machine) : Prop :=
  tcbs s' = tcbs s ∧ cpus s' = cpus s ∧ mutexes s' = mutexes s ∧
  cvs s' = cvs s ∧ ready_threads s' = ready_threads s ∧
  finished_threads s' = finished_threads s ∧ guard s' = guard s ∧
  booted s' = booted s ∧ num_cpus s' = num_cpus s ∧
  num_threads s' = num_threads s.

(** ** Concrete runs used as test inputs *)

(** One CPU runs the first thread (TCB 1) in user code. *)
Definition st_user : machine :=
  Eval vm_compute in default initial (run [Boot (Some 7) 0%Z; Resume 0] initial).

(** The same with one mutex, never locked. *)
Definition st_fresh_mutex : machine :=
  Eval vm_compute in default initial (run [NewMutex] st_user).

(** Thread 1 has locked and unlocked mutex 0; nobody waited for it. *)
Definition st_released : machine :=
  Eval vm_compute in
    default initial (run [NewMutex; NewCv; Lock 0 0; Unlock 0 0] st_user).

(** Thread 1 runs and holds mutex 0, thread 2 is blocked in [lock] on it. *)
Definition st_contended : machine :=
  Eval vm_compute in
    default initial
      (run [Create 0 (Some 8) 1%Z; NewMutex; Lock 0 0; Yield 0; Resume 0;
            Lock 0 0; Resume 0] st_user).

(** Thread 2 has called [lock] on the mutex that thread 1 holds: CPU 0 is
    in the kernel and has just switched to thread 1. *)
Definition st_switching : machine :=
  Eval vm_compute in
    default initial
      (run [Create 0 (Some 8) 1%Z; NewMutex; Lock 0 0; Yield 0; Resume 0;
            Lock 0 0] st_user).

(** Thread 1 runs, thread 2 is blocked in [join] on it. *)
Definition st_joined : machine :=
  Eval vm_compute in
    default initial
      (run [Create 0 (Some 8) 1%Z; Yield 0; Resume 0; Join 0 1; Resume 0]
         st_user).

(** Thread 1 has finished, thread 2 was switched to and is about to run the
    code after [swapcontext] in [get_next_thread]. *)
Definition st_finished : machine :=
  Eval vm_compute in default initial (run [BodyReturns 0] st_joined).

(** * Proofs *)

(** ** Lists *)

Lemma alter_id_at {A} (f : A → A) (l : list A) i x :
  l !! i = Some x → f x = x → alter f i l = l.
Proof.
  revert i; induction l as [|y l IH]; intros [|i] H Hx; simplify_eq/=; try done.
  - by rewrite Hx.
  - f_equal. eauto.
Qed.

Lemma fmap_alter_same {A B} (g : A → B) (f : A → A) (l : list A) i :
  (∀ x, l !! i = Some x → g (f x) = g x) → g <$> alter f i l = g <$> l.
Proof.
  revert i; induction l as [|y l IH]; intros [|i] H; simpl; try done.
  - f_equal. by apply H.
  - f_equal. apply IH. intros x Hx. by apply H.
Qed.

Lemma concat_fmap_alter_push {A} (g : A → list nat) (f : A → A) (l : list A) i x t :
  l !! i = Some x → g (f x) = g x ++ [t] →
  concat (g <$> alter f i l) ≡ₚ t :: concat (g <$> l).
Proof.
  revert i; induction l as [|y l IH]; intros [|i] H Hg; simplify_eq/=.
  - rewrite Hg. rewrite <- app_assoc. simpl.
    by rewrite <- Permutation_middle.
  - rewrite (IH _ H Hg). by rewrite <- Permutation_middle.
Qed.

Lemma concat_fmap_alter_pop {A} (g : A → list nat) (f : A → A) (l : list A) i x t :
  l !! i = Some x → g x = t :: g (f x) →
  concat (g <$> l) ≡ₚ t :: concat (g <$> alter f i l).
Proof.
  revert i; induction l as [|y l IH]; intros [|i] H Hg; simplify_eq/=.
  - by rewrite Hg.
  - rewrite (IH _ H Hg). by rewrite <- Permutation_middle.
Qed.

Lemma concat_fmap_snoc_nil {A} (g : A → list nat) (l : list A) x :
  g x = [] → concat (g <$> (l ++ [x])) = concat (g <$> l).
Proof.
  intros Hg. rewrite fmap_app, concat_app. simpl. by rewrite Hg, !app_nil_r.
Qed.

Lemma submseteq_NoDup_l {A} (l k : list A) : l ⊆+ k → NoDup k → NoDup l.
Proof.
  intros Hs Hk. apply submseteq_Permutation in Hs as [k' Hk'].
  rewrite Hk' in Hk. by apply NoDup_app in Hk as (? & _ & _).
Qed.

Lemma omap_delete_alter {A B} (g : A → option B) (f : A → A) (l : list A) i :
  omap g (delete i (alter f i l)) = omap g (delete i l).
Proof.
  revert i; induction l as [|y l IH]; intros [|i]; simpl; try done.
  destruct (g y); by rewrite IH.
Qed.

Lemma omap_delete_submseteq {A B} (g : A → option B) (l : list A) i :
  omap g (delete i l) ⊆+ omap g l.
Proof.
  revert i; induction l as [|y l IH]; intros [|i]; simpl; try done.
  - destruct (g y); [by apply submseteq_cons|done].
  - destruct (g y); [by apply submseteq_skip|]; apply IH.
Qed.

Lemma omap_delete_split {A B} (g : A → option B) (l : list A) i x :
  l !! i = Some x → omap g l ≡ₚ option_list (g x) ++ omap g (delete i l).
Proof.
  revert i; induction l as [|y l IH]; intros [|i] H; simplify_eq/=.
  - by destruct (g x).
  - destruct (g y); simpl; rewrite (IH _ H); [|done].
    by rewrite <- Permutation_middle.
Qed.

Lemma delete_snoc_last {A} (l : list A) x : delete (length l) (l ++ [x]) = l.
Proof. induction l as [|y l IH]; simpl; [done|]. by rewrite IH. Qed.

(** ** Machine states *)

Lemma machine_eta s :
  mkmachine (tcbs s) (cpus s) (mutexes s) (cvs s) (ready_threads s)
    (sleeping_cpus s) (finished_threads s) (guard s) (booted s) (num_cpus s)
    (num_threads s) (pending_ipis s) = s.
Proof. by destruct s. Qed.

Lemma gate_roundtrip c cp (l : list cpu) :
  l !! c = Some cp → interrupts_enabled cp = true →
  alter (set_interrupts_enabled true) c (alter (set_interrupts_enabled false) c l) = l.
Proof.
  intros H E. rewrite list_alter_alter_eq. apply (alter_id_at _ _ _ cp); [done|].
  destruct cp; simpl in *; by subst.
Qed.

(** ** Tactics *)

(** The library functions that other functions call stay folded, and are
    unfolded by name where their body is needed. *)
Arguments push_to_queue : simpl never.
Arguments fetch_cpu : simpl never.
Arguments clear_finished_threads : simpl never.
Arguments suspend_cpu : simpl never.
Arguments get_next_thread : simpl never.
Arguments internal_lock : simpl never.
Arguments internal_unlock : simpl never.
Arguments thread_yield : simpl never.
Arguments make_shared_TCB : simpl never.
Arguments begin_process : simpl never.
Arguments ipi_handler : simpl never.
Arguments suspend_helper : simpl never.
Arguments thread_execution_begin : simpl never.

Ltac kunfold :=
  unfold kernel_guard, kernel_guard_ctor, kernel_guard_dtor, user_guard_ctor,
    user_guard_dtor, unwinding, interrupt_disable, interrupt_enable,
    interrupt_enable_suspend, interrupt_send, guard_acquire, guard_release,
    assert_interrupts_disabled, swapcontext, setcontext, makecontext,
    write_cpu, write_tcb, write_mutex, write_cv,
    the_cpu, the_tcb, the_mutex, the_cv, bind, gets, modify, deref,
    assert_some, assert, throw, raise, ret in *.

Ltac state_norm :=
  unfold with_tcbs, with_cpus, with_mutexes, with_cvs, with_ready_threads,
    with_sleeping_cpus, with_finished_threads, with_guard, with_booted,
    with_num_cpus, with_num_threads, with_pending_ipis in *; cbn in *.

(** Forward evaluation of a call on a state of which enough is known. *)
Ltac kvalue v :=
  lazymatch v with
  | Some _ => idtac | None => idtac | true => idtac | false => idtac
  | [] => idtac | _ :: _ => idtac
  | Null => idtac | READY => idtac | RUNNING => idtac | BLOCKED => idtac
  | FINISHED => idtac
  end.
Ltac kstep :=
  match goal with
  | |- context [alter ?f ?i ?l !! ?i] => rewrite (list_lookup_alter_eq f l i)
  | H : ?i ≠ ?j |- context [alter ?f ?i ?l !! ?j] =>
      rewrite (list_lookup_alter_ne f l i j H)
  | H : ?j ≠ ?i |- context [alter ?f ?i ?l !! ?j] =>
      rewrite (list_lookup_alter_ne f l i j (not_eq_sym H))
  | H : ?x = ?v |- context [?x] => kvalue v; rewrite H
  | |- context [bool_decide ?P] =>
      first [ rewrite (bool_decide_true P) by (done || congruence)
            | rewrite (bool_decide_false P) by (done || congruence) ]
  end.
Ltac keval := repeat (cbn; try kstep).

(** Backward analysis of a call whose outcome is known: one goal for each
    path through the code that leads to that outcome. *)
Ltac kinv_in H :=
  repeat (cbn in H;
          try match type of H with
              | context [match ?x with _ => _ end] =>
                  lazymatch x with
                  | context [match _ with _ => _ end] => fail
                  | _ => destruct x eqn:?
                  end
              end);
  try discriminate H.

(** ** What the helpers of cpu.cpp do *)

Lemma fetch_cpu_eval c s cp :
  cpus s !! c = Some cp → interrupts_enabled cp = false →
  (∀ n, head (sleeping_cpus s) = Some n → wakeable s c n) →
  fetch_cpu c s =
    Ret tt (with_pending_ipis (λ l, l ++ option_list (head (sleeping_cpus s)))
             (with_sleeping_cpus tail s)).
Proof.
  intros Hc Hi Hw. unfold fetch_cpu. kunfold. keval.
  destruct (sleeping_cpus s) as [|n rest] eqn:Hs; cbn.
  - destruct s; state_norm; simplify_eq. simpl. by rewrite app_nil_r.
  - destruct (Hw n eq_refl) as (Hn & ncp & me & Hncp & Hme & H1 & H2). simplify_eq.
    keval. state_norm. by rewrite Hs.
Qed.

Lemma fetch_cpu_inv c s :
  match fetch_cpu c s with
  | Ret _ s' =>
      same_sched s s' ∧
      sleeping_cpus s' = tail (sleeping_cpus s) ∧
      pending_ipis s' = pending_ipis s ++ option_list (head (sleeping_cpus s))
  | Fault _ => True
  | _ => False
  end.
Proof.
  destruct (fetch_cpu c s) eqn:H; try done;
    unfold fetch_cpu in H; kunfold; kinv_in H; simplify_eq; state_norm;
    rewrite ?app_nil_r; done.
Qed.

Lemma push_to_queue_inv c t s :
  match push_to_queue c t s with
  | Ret _ s' =>
      ∃ tcb, tcbs s !! t = Some tcb ∧
        status tcb ∈ [Null; RUNNING; BLOCKED] ∧
        tcbs s' = alter (set_status READY) t (tcbs s) ∧
        ready_threads s' = ready_threads s ++ [t] ∧
        cpus s' = cpus s ∧ mutexes s' = mutexes s ∧ cvs s' = cvs s ∧
        finished_threads s' = finished_threads s ∧ guard s' = guard s ∧
        booted s' = booted s ∧ num_cpus s' = num_cpus s ∧
        num_threads s' = num_threads s ∧
        sleeping_cpus s' = tail (sleeping_cpus s) ∧
        pending_ipis s' = pending_ipis s ++ option_list (head (sleeping_cpus s))
  | Fault _ => True
  | _ => False
  end.
Proof.
  destruct (push_to_queue c t s) eqn:H; try done;
    unfold push_to_queue in H; kunfold; kinv_in H; simplify_eq.
  all: match goal with
       | H : fetch_cpu ?c ?s0 = _ |- _ =>
           pose proof (fetch_cpu_inv c s0) as HF; rewrite H in HF
       end; try done.
  destruct HF as (HS & ? & ?). unfold same_sched in HS. state_norm.
  destruct_and!. eexists; split; [done|].
  split.
  { repeat case_bool_decide; simplify_eq/=;
      match goal with H : status _ = _ |- _ => rewrite H end; set_solver. }
  repeat split; congruence.
Qed.

Lemma clear_finished_loop_inv curr vec s :
  match clear_finished_loop curr vec s with
  | Ret _ s' => s' = s
  | Fault _ => True
  | _ => False
  end.
Proof.
  induction vec as [|e vec IH]; simpl; [done|].
  kunfold. cbn.
  destruct (tcbs s !! e); [|done]. cbn.
  destruct (bool_decide (status t = FINISHED)); [|done]. cbn.
  destruct (bool_decide (Some e ≠ Some curr)); [|done]. cbn.
  apply IH.
Qed.

Lemma clear_finished_threads_inv c curr s :
  match clear_finished_threads c curr s with
  | Ret _ s' => s' = s
  | Fault _ => True
  | _ => False
  end.
Proof.
  unfold clear_finished_threads. kunfold. cbn.
  destruct (cpus s !! c); [|done]. cbn.
  destruct (negb (interrupts_enabled c0)); [|done]. cbn.
  apply clear_finished_loop_inv.
Qed.

(** ** Condition variables with nobody waiting *)

(** C10: [cv::signal] and [cv::broadcast] on a condition variable whose
    waiting queue is empty return normally and leave the whole machine as it
    was, whatever the mutexes are and whoever owns them. *)
Theorem signal_broadcast_empty c v s cp x :
  cpus s !! c = Some cp → interrupts_enabled cp = true → guard s = false →
  cvs s !! v = Some x → cv_waiting_threads x = [] →
  cv_signal c v s = Ret tt s ∧ cv_broadcast c v s = Ret tt s.
Proof.
  intros Hc Hi Hg Hv Hw.
  split; [unfold cv_signal | unfold cv_broadcast]; kunfold; keval;
    state_norm;
    rewrite (gate_roundtrip c cp), <- Hg by done; by rewrite machine_eta.
Qed.

Lemma signal_broadcast_empty_witness :
  cv_signal 0 0 st_released = Ret tt st_released
  ∧ cv_broadcast 0 0 st_released = Ret tt st_released.
Proof.
  apply (signal_broadcast_empty 0 0 st_released
           (mkcpu (Some 1) (Some 0) 0 true) (mkcv [])); reflexivity.
Defined.

(** ** Errors of unlock *)

(** C9: when [mutex::unlock] raises its error, the mutexes, the TCBs, the
    ready queue and every other part of the scheduler state are what they
    were before the call; called from user code, the call leaves the machine
    exactly as it found it. *)
Theorem unlock_error_atomic c m s what s' :
  mutex_unlock c m s = Throw what s' →
  mutexes s' = mutexes s ∧ tcbs s' = tcbs s ∧
  ready_threads s' = ready_threads s ∧ cvs s' = cvs s ∧
  finished_threads s' = finished_threads s ∧
  sleeping_cpus s' = sleeping_cpus s ∧ pending_ipis s' = pending_ipis s ∧
  guard s' = guard s ∧
  (∀ cp, cpus s !! c = Some cp → interrupts_enabled cp = true → s' = s).
Proof.
  intros H. unfold mutex_unlock, internal_unlock in H. kunfold.
  kinv_in H;
    try match goal with
        | H : push_to_queue ?c ?t ?s0 = _ |- _ =>
            pose proof (push_to_queue_inv c t s0) as HP; rewrite H in HP; done
        end.
  simplify_eq. state_norm. repeat split; try done.
  intros cp ? Hi; simplify_eq.
  rewrite (gate_roundtrip c cp) by done.
  match goal with H : guard s = false |- _ => rewrite <- H end. apply machine_eta.
Qed.

Lemma unlock_error_atomic_witness :
  mutex_unlock 0 0 st_fresh_mutex = Throw runtime_error_unlock st_fresh_mutex
  ∧ mutexes st_fresh_mutex = mutexes st_fresh_mutex.
Proof.
  split; [reflexivity|].
  apply (unlock_error_atomic 0 0 st_fresh_mutex runtime_error_unlock
           st_fresh_mutex).
  reflexivity.
Defined.

(** ** The ready queue *)


(** Forward evaluation of [push_to_queue] where its assertions hold. *)
Lemma push_to_queue_eval c thread s cp t :
  cpus s !! c = Some cp → interrupts_enabled cp = false → guard s = true →
  tcbs s !! thread = Some t → status t ∈ [Null; RUNNING; BLOCKED] →
  (∀ n, head (sleeping_cpus s) = Some n → wakeable s c n) →
  ∃ s', push_to_queue c thread s = Ret tt s' ∧
    tcbs s' = alter (set_status READY) thread (tcbs s) ∧
    ready_threads s' = ready_threads s ++ [thread] ∧
    sleeping_cpus s' = tail (sleeping_cpus s) ∧
    pending_ipis s' = pending_ipis s ++ option_list (head (sleeping_cpus s)) ∧
    cpus s' = cpus s ∧ mutexes s' = mutexes s ∧ cvs s' = cvs s ∧
    finished_threads s' = finished_threads s ∧ guard s' = guard s ∧
    booted s' = booted s ∧ num_cpus s' = num_cpus s ∧
    num_threads s' = num_threads s.
Proof.
  intros Hc Hi Hg Ht Hst Hw.
  eexists. split.
  - unfold push_to_queue. kunfold. keval.
    assert (bool_decide (status t ≠ FINISHED) = true ∧
            bool_decide (status t ≠ READY) = true ∧
            (bool_decide (status t = RUNNING) || bool_decide (status t = BLOCKED)
             || bool_decide (status t = Null)) = true) as (-> & -> & ->).
    { set_unfold. destruct Hst as [-> | [-> | [-> | []]]]; done. }
    keval.
    match goal with |- fetch_cpu c ?s0 = _ =>
      rewrite (fetch_cpu_eval c s0 cp) by done end.
    reflexivity.
  - simpl. done.
Qed.

(** C7: on a TCB that is new, running or blocked, with interrupts off and the
    guard held, [push_to_queue] makes the TCB ready, appends it to the ready
    queue behind the entries that are there, and then, through [fetch_cpu],
    takes the first CPU off the idle-CPU queue and sends it an IPI, or does
    nothing if no CPU is idle. *)
Theorem push_to_queue_spec c thread s cp t :
  cpus s !! c = Some cp → interrupts_enabled cp = false → guard s = true →
  tcbs s !! thread = Some t → status t ∈ [Null; RUNNING; BLOCKED] →
  (∀ n, head (sleeping_cpus s) = Some n → wakeable s c n) →
  ∃ s', push_to_queue c thread s = Ret tt s' ∧
    tcbs s' = alter (set_status READY) thread (tcbs s) ∧
    ready_threads s' = ready_threads s ++ [thread] ∧
    sleeping_cpus s' = tail (sleeping_cpus s) ∧
    pending_ipis s' = pending_ipis s ++ option_list (head (sleeping_cpus s)) ∧
    cpus s' = cpus s ∧ mutexes s' = mutexes s ∧ cvs s' = cvs s ∧
    finished_threads s' = finished_threads s ∧ guard s' = guard s ∧
    booted s' = booted s ∧ num_cpus s' = num_cpus s ∧
    num_threads s' = num_threads s.
Proof. apply push_to_queue_eval. Qed.

Lemma push_to_queue_spec_witness :
  ∃ s', push_to_queue 0 2 st_switching = Ret tt s' ∧
    tcbs s' = alter (set_status READY) 2 (tcbs st_switching) ∧
    ready_threads s' = [2].
Proof.
  destruct (push_to_queue_spec 0 2 st_switching
              (mkcpu (Some 1) (Some 0) 0 false)
              (mkTCB BLOCKED 2 [] [AssertDisabled; ClearFinished 2]))
    as (s' & H & Ht & Hr & _); try reflexivity.
  - set_solver.
  - intros n Hn. discriminate Hn.
  - exists s'. by rewrite Hr.
Defined.

(** ** The end of a thread *)






(** ** Mutexes *)

(** A thread that finds the mutex taken is put on its waiting queue and
    gives the CPU away; the context it leaves behind has no step that looks
    at the mutex again. *)
Lemma lock_busy_blocks c m s cp cur ct mx idle it :
  cpus s !! c = Some cp → interrupts_enabled cp = true → guard s = false →
  curr_thread cp = Some cur → tcbs s !! cur = Some ct →
  suspended_thread cp = Some idle → tcbs s !! idle = Some it →
  mutexes s !! m = Some mx → free mx = false →
  (∀ t, t ∈ ready_threads s →
     t ≠ cur ∧ ∃ x, tcbs s !! t = Some x ∧ status x = READY) →
  ∃ s' k, mutex_lock c m s = Switched s' ∧ k ∈ lock_frames cur ∧
    tcbs s' !! cur = Some (mkTCB BLOCKED (id ct) (join_q ct) k) ∧
    mutexes s' !! m = Some (set_waiting_threads (waiting_threads mx ++ [cur]) mx) ∧
    ready_threads s' = tail (ready_threads s) ∧
    cpus s' !! c =
      Some (mkcpu (Some (default idle (head (ready_threads s)))) (Some idle)
              (cpu_id cp) false) ∧
    guard s' = true.
Proof.
  intros Hc Hi Hg Hcur Hct Hidle Hit Hm Hf Hr.
  assert (Hor : bool_decide (status ct ≠ FINISHED)
                || bool_decide (status ct ≠ READY) = true)
    by (by destruct (status ct)).
  destruct (ready_threads s) as [|next rest] eqn:Er.
  - assert (∃ x, alter (set_status BLOCKED) cur (tcbs s) !! idle = Some x)
      as [ix Hix].
    { destruct (decide (idle = cur)) as [->|].
      - rewrite list_lookup_alter_eq, Hct. eauto.
      - rewrite list_lookup_alter_ne, Hit by done. eauto. }
    assert (∃ y, alter (set_uc []) cur
                   (alter (set_status BLOCKED) cur (tcbs s)) !! idle = Some y)
      as [iy Hiy].
    { destruct (decide (idle = cur)) as [->|].
      - rewrite !list_lookup_alter_eq, Hct. eauto.
      - rewrite list_lookup_alter_ne, Hix by done. eauto. }
    eexists _, []. split.
    { unfold mutex_lock, internal_lock, get_next_thread, suspend_cpu.
      kunfold. keval. reflexivity. }
    simpl. split; [unfold lock_frames; set_solver|].
    rewrite !list_lookup_alter_eq, Hct, Hm, Hc, Er. simpl.
    unfold set_curr_thread, set_interrupts_enabled; simpl. by rewrite Hidle.
  - destruct (Hr next) as (Hne & nt & Hnt & Hns); [set_solver|].
    eexists _, [AssertDisabled; ClearFinished cur]. split.
    { unfold mutex_lock, internal_lock, get_next_thread.
      kunfold. keval. reflexivity. }
    simpl. split; [unfold lock_frames; set_solver|].
    rewrite list_lookup_alter_eq, list_lookup_alter_ne by done.
    rewrite !list_lookup_alter_eq, Hct, Hm, Hc. simpl.
    unfold set_curr_thread, set_interrupts_enabled; simpl. by rewrite Hidle.
Qed.

Lemma lock_frames_no_recheck cur k c s :
  k ∈ lock_frames cur →
  match run_frames c k s with
  | Ret _ s' => mutexes s' = mutexes s ∧ tcbs s' = tcbs s
                ∧ ready_threads s' = ready_threads s
  | Fault _ => True
  | _ => False
  end.
Proof.
  unfold lock_frames. intros [->|[->|[]%elem_of_nil]%elem_of_cons]%elem_of_cons.
  - destruct (run_frames c [AssertDisabled; ClearFinished cur] s) eqn:H;
      try done; simpl in H; kunfold; kinv_in H;
      match goal with
      | H : clear_finished_threads ?c ?t ?s0 = _ |- _ =>
          pose proof (clear_finished_threads_inv c t s0) as HP; rewrite H in HP
      end; try done; by simplify_eq.
  - destruct (run_frames c [] s) eqn:H; try done; simpl in H; kunfold;
      kinv_in H; by simplify_eq.
Qed.

(** C1: when the owner unlocks a mutex on which threads wait, the first
    waiter is taken off the waiting queue, becomes the owner with the mutex
    still (again) taken, and is enqueued on the ready queue through
    [push_to_queue]; after the call the waiter holds the mutex, and the
    context in which it blocked in [lock] resumes without touching any
    mutex. *)
Theorem direct_handoff c m s cp cur ct mx w rest wt :
  cpus s !! c = Some cp → interrupts_enabled cp = true → guard s = false →
  curr_thread cp = Some cur → tcbs s !! cur = Some ct →
  mutexes s !! m = Some mx → thread_holding_lock mx = to_int (id ct) →
  waiting_threads mx = w :: rest →
  tcbs s !! w = Some wt → status wt = BLOCKED →
  (∀ n, head (sleeping_cpus s) = Some n → wakeable s c n) →
  ∃ s', mutex_unlock c m s = Ret tt s' ∧
    mutexes s' !! m = Some (mkmutex rest (to_int (id wt)) false) ∧
    (∀ m', m' ≠ m → mutexes s' !! m' = mutexes s !! m') ∧
    tcbs s' = alter (set_status READY) w (tcbs s) ∧
    ready_threads s' = ready_threads s ++ [w] ∧
    holds s' m w ∧
    cpus s' = cpus s ∧ guard s' = false ∧ cvs s' = cvs s ∧
    finished_threads s' = finished_threads s ∧
    sleeping_cpus s' = tail (sleeping_cpus s) ∧
    pending_ipis s' = pending_ipis s ++ option_list (head (sleeping_cpus s)) ∧
    (∀ k c' s1, k ∈ lock_frames w →
       match run_frames c' k s1 with
       | Ret _ s2 => mutexes s2 = mutexes s1
       | Fault _ => True
       | _ => False
       end).
Proof.
  intros Hc Hi Hg Hcur Hct Hm Ho Hw Hwt Hws Hwk.
  set (cp0 := set_interrupts_enabled false cp).
  set (s0 := with_mutexes (alter (set_free false) m)
              (with_mutexes (alter (set_thread_holding_lock (to_int (id wt))) m)
              (with_mutexes (alter (set_waiting_threads rest) m)
              (with_mutexes (alter (set_free true) m)
              (with_guard true
                 (with_cpus (alter (set_interrupts_enabled false) c) s)))))).
  destruct (push_to_queue_eval c w s0 cp0 wt)
    as (s1 & Hp & Ht1 & Hr1 & Hs1 & Hp1 & Hc1 & Hm1 & Hv1 & Hf1 & Hg1 & _);
    try done.
  { subst s0; simpl. by rewrite list_lookup_alter_eq, Hc. }
  { rewrite Hws. set_solver. }
  { subst s0; simpl. intros n Hn.
    destruct (Hwk n Hn) as (? & ncp & me & ? & ? & ? & ?).
    split; [done|]. exists ncp, (set_interrupts_enabled false me). simpl.
    rewrite list_lookup_alter_ne, list_lookup_alter_eq by done.
    simplify_eq. by rewrite Hc. }
  assert (Hc1' : cpus s1 !! c = Some cp0).
  { rewrite Hc1. subst s0; simpl. by rewrite list_lookup_alter_eq, Hc. }
  exists (with_cpus (alter (set_interrupts_enabled true) c) (with_guard false s1)).
  split.
  { unfold mutex_unlock, internal_unlock. kunfold. subst cp0. keval.
    fold s0. rewrite Hp. keval. done. }
  simpl. rewrite Hm1, Ht1, Hr1, Hc1, Hv1, Hf1, Hs1, Hp1. subst s0; simpl.
  assert (Hmm : alter (set_free false) m
                  (alter (set_thread_holding_lock (to_int (id wt))) m
                     (alter (set_waiting_threads rest) m
                        (alter (set_free true) m (mutexes s)))) !! m
                = Some (mkmutex rest (to_int (id wt)) false)).
  { by rewrite !list_lookup_alter_eq, Hm. }
  split; [done|].
  split. { intros m' Hne. simpl. by rewrite !list_lookup_alter_ne. }
  repeat split; try done.
  - exists (mkmutex rest (to_int (id wt)) false), (set_status READY wt).
    simpl. rewrite Hm1. simpl.
    rewrite Hmm, Ht1. simpl. by rewrite list_lookup_alter_eq, Hwt.
  - by apply (gate_roundtrip c cp).
  - intros k c' s2 Hk. pose proof (lock_frames_no_recheck w k c' s2 Hk) as H.
    destruct (run_frames c' k s2); try done. by destruct H.
Qed.

Lemma direct_handoff_witness :
  ∃ s', mutex_unlock 0 0 st_contended = Ret tt s' ∧
    mutexes s' !! 0 = Some (mkmutex [] 2 false) ∧
    ready_threads s' = [2] ∧ holds s' 0 2.
Proof.
  destruct (direct_handoff 0 0 st_contended
              (mkcpu (Some 1) (Some 0) 0 true) 1
              (mkTCB RUNNING 1 [] [ClearFinished 1])
              (mkmutex [2] 1 false) 2 []
              (mkTCB BLOCKED 2 [] [AssertDisabled; ClearFinished 2]))
    as (s' & H & Hm & _ & _ & Hr & Hh & _); try reflexivity.
  - intros n Hn. discriminate Hn.
  - exists s'. by rewrite Hr.
Defined.

(** The owner check of [unlock] compares the owner field with the id of the
    caller, and nothing else. *)
Lemma unlock_not_owner_throws c m s cp cur ct mx :
  cpus s !! c = Some cp → interrupts_enabled cp = true → guard s = false →
  curr_thread cp = Some cur → tcbs s !! cur = Some ct →
  mutexes s !! m = Some mx → thread_holding_lock mx ≠ to_int (id ct) →
  mutex_unlock c m s = Throw runtime_error_unlock s.
Proof.
  intros Hc Hi Hg Hcur Hct Hm Hne.
  unfold mutex_unlock, internal_unlock. kunfold. keval. state_norm.
  rewrite (gate_roundtrip c cp) by done. rewrite <- Hg. by rewrite machine_eta.
Qed.

(** An unlock that finds nobody waiting marks the mutex free and leaves
    the owner field as it is. *)
Lemma unlock_nobody_waiting c m s cp cur ct mx :
  cpus s !! c = Some cp → interrupts_enabled cp = true → guard s = false →
  curr_thread cp = Some cur → tcbs s !! cur = Some ct →
  mutexes s !! m = Some mx → thread_holding_lock mx = to_int (id ct) →
  waiting_threads mx = [] →
  mutex_unlock c m s = Ret tt (with_mutexes (alter (set_free true) m) s).
Proof.
  intros Hc Hi Hg Hcur Hct Hm Ho Hw.
  unfold mutex_unlock, internal_unlock. kunfold. keval. state_norm.
  rewrite (gate_roundtrip c cp) by done. by rewrite <- Hg.
Qed.

(** C2: after thread 1 locked and unlocked mutex 0 with nobody waiting, the
    mutex is free, no thread holds it, and its owner field is still the id
    of thread 1, not the sentinel -1 that the constructor stored. *)
Theorem owner_field_stale_after_unlock :
  run [NewMutex; NewCv; Lock 0 0; Unlock 0 0] st_user = Some st_released
  ∧ mutexes st_released !! 0 = Some (mkmutex [] 1 true)
  ∧ (∀ t, ¬ holds st_released 0 t)
  ∧ mutexes st_fresh_mutex !! 0 = Some (mkmutex [] (-1) true).
Proof.
  split; [reflexivity|]. split; [reflexivity|]. split; [|reflexivity].
  intros t (mx & tcb & Hm & _ & Hf & _). cbv in Hm. by simplify_eq.
Qed.

(** C3: in that state thread 1 does not hold mutex 0, and its call of
    [unlock] raises no error; the call returns and leaves the state as it
    is. *)
Theorem unlock_by_non_holder_accepted :
  ¬ holds st_released 0 1
  ∧ curr_thread <$> cpus st_released !! 0 = Some (Some 1)
  ∧ mutex_unlock 0 0 st_released = Ret tt st_released.
Proof.
  split; [|split; reflexivity].
  intros (mx & tcb & Hm & _ & Hf & _). cbv in Hm. by simplify_eq.
Qed.

(** ** Condition variables *)

Lemma wait_not_owner_throws c v m s cp cur ct mx :
  cpus s !! c = Some cp → interrupts_enabled cp = true → guard s = false →
  curr_thread cp = Some cur → tcbs s !! cur = Some ct →
  mutexes s !! m = Some mx → thread_holding_lock mx ≠ to_int (id ct) →
  cv_wait c v m s = Throw runtime_error_wait s.
Proof.
  intros Hc Hi Hg Hcur Hct Hm Hne.
  unfold cv_wait. kunfold. keval. state_norm.
  rewrite (gate_roundtrip c cp) by done. rewrite <- Hg. by rewrite machine_eta.
Qed.

(** C6: thread 1, which does not hold mutex 0 (the mutex is free), calls
    [wait] on it: no error is raised, the thread is blocked on the waiting
    queue of the condition variable, and the CPU switches to its idle TCB. *)
Theorem wait_by_non_owner_accepted :
  ¬ holds st_released 0 1
  ∧ ∃ s', cv_wait 0 0 0 st_released = Switched s'
    ∧ cvs s' !! 0 = Some (mkcv [1])
    ∧ tcbs s' !! 1 = Some (mkTCB BLOCKED 1 [] [InternalLock 0])
    ∧ curr_thread <$> cpus s' !! 0 = Some (Some 0).
Proof.
  split.
  - intros (mx & tcb & Hm & _ & Hf & _). cbv in Hm. by simplify_eq.
  - eexists. split; [reflexivity|]. by repeat split.
Qed.

(** ** The sweep of the finished list *)

(** C4: thread 2 resumes after thread 1 has finished; the sweep it runs
    returns with the finished list as it was, still holding its reference to
    the TCB of thread 1, where the sweep of the specification would have
    emptied it. *)
Theorem sweep_keeps_finished_list :
  finished_threads st_finished = [1]
  ∧ clear_finished_threads 0 2 st_finished = Ret tt st_finished
  ∧ (∃ s', run [Resume 0] st_finished = Some s' ∧ finished_threads s' = [1]
           ∧ use_count s' 1 = 1)
  ∧ finished_threads (spec_sweep 2 st_finished) = [].
Proof.
  split; [reflexivity|]. split; [reflexivity|]. split; [|reflexivity].
  eexists. split; [reflexivity|]. split; reflexivity.
Qed.
